(** * cognito-fetch: a shallow embedding of [src/lib/index.ts]

    The repository exports one function, [cognitoFetch(target, options)].
    It resolves a region and a credential pair from [options] and
    [process.env], builds a request object, optionally hands that object
    to [aws4.sign], sends it with [fetch] and returns [res.json()].

    The embedding follows the source line by line.  The three things the
    function calls but does not define ([JSON.stringify], [aws4.sign] and
    the global [fetch]) form the interface [Collaborators]; each of them
    can fail, and every call to one of them is recorded, so that
    statements about what was invoked, with which arguments and in which
    order, can be made. *)

From Stdlib Require Import ZArith List Ascii String.
From stdpp Require Import base option list gmap strings.

Local Open Scope string_scope.

(** ** Values of type [string | undefined] and [boolean | undefined] *)

(** [undefined] is [None].  A string is truthy unless it is empty. *)
Definition truthy (v : option string) : bool :=
  match v with
  | Some (String _ _) => true
  | Some EmptyString => false
  | None => false
  end.

(** A boolean flag is truthy when it is [true]. *)
Definition truthy_flag (v : option bool) : bool :=
  match v with
  | Some b => b
  | None => false
  end.

(** The operator [a || b]: [a] when [a] is truthy, otherwise [b]
    (whatever [b] is). *)
Definition js_or (a b : option string) : option string :=
  if truthy a then a else b.

Declare Scope js_scope.
Infix "||" := js_or (at level 50, left associativity) : js_scope.
Delimit Scope js_scope with js.

(** What a template literal substitutes for [${v}]. *)
Definition template_text (v : option string) : string :=
  match v with
  | Some s => s
  | None => "undefined"
  end.

(** ** The interface [CognitoFetchOptions] *)

Module Options.
Record t (Any : Type) := mk {
  region : option string;
  accessKeyId : option string;
  secretAccessKey : option string;
  body : Any;
  signed : option bool
}.
Arguments mk {Any}.
Arguments region {Any}.
Arguments accessKeyId {Any}.
Arguments secretAccessKey {Any}.
Arguments body {Any}.
Arguments signed {Any}.
End Options.

(** ** [process.env]: a map from variable names to strings *)

Abbreviation Env := (gmap string string).

(** ** Lines 26-35: resolution and the URL *)

Section Resolution.
Context {Any : Type}.
Variable options : Options.t Any.
Variable env : Env.

Definition AWS_REGION : option string := env !! "AWS_REGION".
Definition AWS_DEFAULT_REGION : option string := env !! "AWS_DEFAULT_REGION".
Definition AWS_ACCESS_KEY_ID : option string := env !! "AWS_ACCESS_KEY_ID".
Definition AWS_SECRET_ACCESS_KEY : option string :=
  env !! "AWS_SECRET_ACCESS_KEY".

Definition region : option string :=
  (Options.region options || AWS_REGION || AWS_DEFAULT_REGION)%js.

Definition accessKeyId : option string :=
  (Options.accessKeyId options || AWS_ACCESS_KEY_ID)%js.

Definition secretAccessKey : option string :=
  (Options.secretAccessKey options || AWS_SECRET_ACCESS_KEY)%js.

Definition url : string :=
  "https://cognito-idp." +:+ template_text region +:+ ".amazonaws.com/".
End Resolution.

(** ** Outcomes of calls *)

(** A synchronous call returns or throws; an awaited promise is fulfilled
    or rejected.  [Err] is the type of thrown values. *)
Inductive Completion (Err A : Type) : Type :=
  | Return (a : A)
  | Throw (e : Err).
Arguments Return {Err A}.
Arguments Throw {Err A}.

Inductive Promise (Err A : Type) : Type :=
  | Fulfilled (a : A)
  | Rejected (e : Err).
Arguments Fulfilled {Err A}.
Arguments Rejected {Err A}.

(** ** The request object (lines 36-48) and what comes back *)

Record AbortSignal := { aborted : bool }.

(** [new AbortController()]: a fresh controller whose signal has not been
    aborted.  The function never calls [abort.abort()]. *)
Record AbortController := { signal : AbortSignal }.
Definition new_AbortController : AbortController :=
  {| signal := {| aborted := false |} |}.

Module Request.
Record t := mk {
  signal : AbortSignal;
  service : string;
  region : option string;
  method : string;
  url : string;
  headers : gmap string string;
  body : option string
}.
End Request.

(** The second argument of [aws4.sign]. *)
Module Credentials.
Record t := mk {
  accessKeyId : option string;
  secretAccessKey : option string
}.
End Credentials.

(** What [fetch] resolves to: a status and the outcome of [res.json()]. *)
Record Response (Err Any : Type) := {
  status : Z;
  json : Promise Err Any
}.
Arguments status {Err Any}.
Arguments json {Err Any}.

(** One entry per call the function makes to code outside itself. *)
Inductive Call (Err Any : Type) : Type :=
  | call_stringify (v : Any)
  | call_sign (r : Request.t) (c : Credentials.t)
  | call_fetch (u : string) (r : Request.t)
  | call_json (res : Response Err Any).
Arguments call_stringify {Err Any}.
Arguments call_sign {Err Any}.
Arguments call_fetch {Err Any}.
Arguments call_json {Err Any}.

(** ** A computation: the calls made so far, and how it completed *)

Definition M (Err Any A : Type) : Type :=
  (list (Call Err Any) * Completion Err A)%type.

Definition ret {Err Any A} (a : A) : M Err Any A := ([], Return a).

Definition bind {Err Any A B}
    (m : M Err Any A) (k : A -> M Err Any B) : M Err Any B :=
  match m with
  | (calls, Throw e) => (calls, Throw e)
  | (calls, Return a) =>
      match k a with
      | (calls', r) => ((calls ++ calls')%list, r)
      end
  end.

Notation "x <- m ;; k" := (bind m (fun x => k))
  (at level 100, m at next level, right associativity).

(** [await p]: the value of a fulfilled promise; a rejected one throws its
    reason at the [await]. *)
Definition await {Err A} (p : Promise Err A) : Completion Err A :=
  match p with
  | Fulfilled a => Return a
  | Rejected e => Throw e
  end.

(** An [async] function turns the completion of its body into the state of
    the promise it returned. *)
Definition async {Err A} (c : Completion Err A) : Promise Err A :=
  match c with
  | Return a => Fulfilled a
  | Throw e => Rejected e
  end.

(** ** [cognitoFetch] *)

(** What the function calls and does not define.

    - [JSON.stringify] on a value of type [any]: it returns a text,
      returns [undefined] ([None]: for [undefined], a function or a
      symbol), or throws (a BigInt, a circular structure, a throwing
      [toJSON]).
    - [aws4.sign(requestOptions, credentials)] changes the object it is
      given in place: the function gives the contents of the object's
      seven properties after the call, or the value thrown.
    - the global [fetch], which returns a promise of a response. *)
Class Collaborators (Err Any : Type) := {
  JSON_stringify : Any -> Completion Err (option string);
  aws4_sign : Request.t -> Credentials.t -> Completion Err Request.t;
  fetch : string -> Request.t -> Promise Err (Response Err Any)
}.

Section CognitoFetch.
Context {Err Any : Type} {outside : Collaborators Err Any}.

Variable target : string.
Variable options : Options.t Any.
Variable env : Env.

Definition stringify (v : Any) : M Err Any (option string) :=
  ([call_stringify v], JSON_stringify v).

Definition sign (r : Request.t) (c : Credentials.t)
  : M Err Any Request.t :=
  ([call_sign r c], aws4_sign r c).

Definition send (u : string) (r : Request.t)
  : M Err Any (Response Err Any) :=
  ([call_fetch u r], await (fetch u r)).

Definition read_json (res : Response Err Any) : M Err Any Any :=
  ([call_json res], await (json res)).

(** Lines 43-46. *)
Definition headers : gmap string string :=
  {[ "x-amz-target" := target;
     "content-type" := "application/x-amz-json-1.1" ]}.

(** Lines 36-48, given what [JSON.stringify] returned. *)
Definition requestOptions (text : option string) : Request.t :=
  let abort := new_AbortController in
  {| Request.signal := signal abort;
     Request.service := "cognito-idp";
     Request.region := region options env;
     Request.method := "POST";
     Request.url := url options env;
     Request.headers := headers;
     Request.body := text |}.

Definition credentials : Credentials.t :=
  {| Credentials.accessKeyId := accessKeyId options env;
     Credentials.secretAccessKey := secretAccessKey options env |}.

(** The object of lines 37-48 as this call builds it, or what
    [JSON.stringify] threw at line 47 while it was being built. *)
Definition descriptor : Completion Err Request.t :=
  match JSON_stringify (Options.body options) with
  | Return text => Return (requestOptions text)
  | Throw e => Throw e
  end.

(** Lines 37-55 seen from line 57: the contents of [requestOptions] when
    [fetch] is about to be called, or what [JSON.stringify] or
    [aws4.sign] threw before that line was reached. *)
Definition at_dispatch : Completion Err Request.t :=
  match descriptor with
  | Return d =>
      if truthy_flag (Options.signed options)
      then aws4_sign d credentials
      else Return d
  | Throw e => Throw e
  end.

(** The body of the function.  [requestOptions] is one object: what
    [aws4.sign] did to it is what [fetch] receives as its second
    argument, while the first argument is the constant [url] of
    line 35. *)
Definition cognitoFetch_body : M Err Any Any :=
  text <- stringify (Options.body options) ;;
  let requestOptions := requestOptions text in
  requestOptions <-
    (if truthy_flag (Options.signed options)
     then sign requestOptions credentials
     else ret requestOptions) ;;
  res <- send (url options env) requestOptions ;;
  read_json res.

(** The calls made, in order. *)
Definition calls : list (Call Err Any) := fst cognitoFetch_body.

(** The promise the caller holds. *)
Definition cognitoFetch : Promise Err Any := async (snd cognitoFetch_body).
End CognitoFetch.


(** ** Reading the record of calls *)

Definition is_sign {Err Any} (c : Call Err Any) : bool :=
  match c with call_sign _ _ => true | _ => false end.

Definition is_fetch {Err Any} (c : Call Err Any) : bool :=
  match c with call_fetch _ _ => true | _ => false end.

(** The call [c] failed with [e]: it threw [e], or the promise it
    returned was rejected with [e]. *)
Definition failed_with {Err Any} {outside : Collaborators Err Any}
    (e : Err) (c : Call Err Any) : Prop :=
  match c with
  | call_stringify v => JSON_stringify v = Throw e
  | call_sign r k => aws4_sign r k = Throw e
  | call_fetch u r => fetch u r = Rejected e
  | call_json res => json res = Rejected e
  end.

(** The same collaborators with another transport. *)
Definition with_fetch {Err Any}
    (f : string -> Request.t -> Promise Err (Response Err Any))
    (outside : Collaborators Err Any) : Collaborators Err Any :=
  {| JSON_stringify := JSON_stringify; aws4_sign := aws4_sign; fetch := f |}.

(** A transport that answers as [f] does, except that every status [z]
    is replaced by [g z]. *)
Definition restatus {Err Any} (g : Z -> Z)
    (f : string -> Request.t -> Promise Err (Response Err Any))
  : string -> Request.t -> Promise Err (Response Err Any) :=
  fun u r =>
    match f u r with
    | Fulfilled res =>
        Fulfilled {| status := g (status res); json := json res |}
    | Rejected e => Rejected e
    end.

(** [x] was called, and [y] was called later. *)
Definition precedes {A} (x y : A) (l : list A) : Prop :=
  exists l1 l2 l3, l = (l1 ++ x :: l2 ++ y :: l3)%list.


(** ** The helpers and the loop of the repository's tests *)

Module Tests.

(** [createMockResponse(data, status = 200)]: a promise fulfilled with a
    response of that status whose [json()] is fulfilled with [data].  A
    missing second argument is [None]. *)
Definition createMockResponse {Err Any} (data : Any) (status : option Z)
  : Promise Err (Response Err Any) :=
  let status := default 200%Z status in
  Fulfilled {| status := status; json := Fulfilled data |}.

(** [mockFetch] after
    [mockImplementation(() => createMockResponse(data, status))]: the
    arguments are not looked at. *)
Definition mockFetch {Err Any} (data : Any) (status : option Z)
  : string -> Request.t -> Promise Err (Response Err Any) :=
  fun _ _ => createMockResponse data status.




End Tests.

(** ** Test doubles

    Concrete stand-ins for the three outside functions, in the manner of
    the repository's tests ([mockFetch], [createMockResponse]), used to
    run the function on concrete inputs. *)

Module Mock.

(** JavaScript values: JSON data without numbers (an object lists its
    properties in enumeration order), BigInt values and [undefined]. *)
#[warnings="-register-all"]
Inductive Value : Type :=
  | JNull
  | JBool (b : bool)
  | JStr (s : string)
  | JArr (items : list Value)
  | JObj (props : list (string * Value))
  | JBigInt (n : Z)
  | JUndefined.

(** A thrown [Error]: its constructor's name and its message. *)
Record Error := { name : string; message : string }.

Definition typeError : Error :=
  {| name := "TypeError";
     message := "Do not know how to serialize a BigInt" |}.

Definition dquote : string := String (ascii_of_nat 34) EmptyString.
Definition backslash : string := String (ascii_of_nat 92) EmptyString.

Definition hex_digit (n : nat) : ascii :=
  if Nat.ltb n 10 then ascii_of_nat (48 + n) else ascii_of_nat (87 + n).

(** One character inside a JSON string, as [JSON.stringify] writes it. *)
Definition escape_char (c : ascii) : string :=
  let n := nat_of_ascii c in
  if Nat.eqb n 34 then backslash +:+ dquote
  else if Nat.eqb n 92 then backslash +:+ backslash
  else if Nat.eqb n 8 then backslash +:+ "b"
  else if Nat.eqb n 9 then backslash +:+ "t"
  else if Nat.eqb n 10 then backslash +:+ "n"
  else if Nat.eqb n 12 then backslash +:+ "f"
  else if Nat.eqb n 13 then backslash +:+ "r"
  else if Nat.ltb n 32 then
    backslash +:+ "u00" +:+
    String (hex_digit (n / 16)) (String (hex_digit (n mod 16)) EmptyString)
  else String c EmptyString.

Fixpoint escape (s : string) : string :=
  match s with
  | EmptyString => EmptyString
  | String c s' => escape_char c +:+ escape s'
  end.

Definition quote (s : string) : string := dquote +:+ escape s +:+ dquote.

(** [JSON.stringify]: compact text, no white space between tokens.  A
    BigInt anywhere in the value throws.  [undefined] has no text: alone
    it gives [undefined], in an array it is written [null], and a
    property holding it is left out. *)
Fixpoint stringify (v : Value) : Completion Error (option string) :=
  match v with
  | JNull => Return (Some "null")
  | JBool true => Return (Some "true")
  | JBool false => Return (Some "false")
  | JStr s => Return (Some (quote s))
  | JBigInt _ => Throw typeError
  | JUndefined => Return None
  | JArr items =>
      match
        (fix elements (l : list Value) : Completion Error (list string) :=
           match l with
           | [] => Return []
           | x :: l' =>
               match stringify x with
               | Throw e => Throw e
               | Return t =>
                   match elements l' with
                   | Throw e => Throw e
                   | Return ts => Return (default "null" t :: ts)
                   end
               end
           end) items
      with
      | Throw e => Throw e
      | Return ts => Return (Some ("[" +:+ String.concat "," ts +:+ "]"))
      end
  | JObj props =>
      match
        (fix members (l : list (string * Value))
           : Completion Error (list string) :=
           match l with
           | [] => Return []
           | (k, x) :: l' =>
               match stringify x with
               | Throw e => Throw e
               | Return t =>
                   match members l' with
                   | Throw e => Throw e
                   | Return ts =>
                       Return
                         match t with
                         | Some t => (quote k +:+ ":" +:+ t) :: ts
                         | None => ts
                         end
                   end
               end
           end) props
      with
      | Throw e => Throw e
      | Return ts => Return (Some ("{" +:+ String.concat "," ts +:+ "}"))
      end
  end.

(** A signer that adds two headers and leaves everything else as it is;
    without a complete credential pair it throws. *)
Definition mockSign (r : Request.t) (c : Credentials.t)
  : Completion Error Request.t :=
  match Credentials.accessKeyId c, Credentials.secretAccessKey c with
  | Some key, Some _ =>
      Return
        {| Request.signal := Request.signal r;
           Request.service := Request.service r;
           Request.region := Request.region r;
           Request.method := Request.method r;
           Request.url := Request.url r;
           Request.headers :=
             <[ "Authorization" := "AWS4-HMAC-SHA256 Credential=" +:+ key ]>
               (<[ "X-Amz-Date" := "20240101T000000Z" ]> (Request.headers r));
           Request.body := Request.body r |}
  | _, _ => Throw {| name := "Error"; message := "no credentials" |}
  end.

(** [createMockResponse(data, status)]. *)
Definition createMockResponse (data : Value) (status : Z)
  : Promise Error (Response Error Value) :=
  Fulfilled {| status := status; json := Fulfilled data |}.

(** A transport that answers every request with the same response. *)
Definition mockFetch (p : Promise Error (Response Error Value))
  : string -> Request.t -> Promise Error (Response Error Value) :=
  fun _ _ => p.

Definition target : string := "AWSCognitoIdentityProviderService.InitiateAuth".

Definition client_body : Value := JObj [("ClientId", JStr "test-client")].

(** Its JSON text. *)
Definition client_text : string :=
  "{" +:+ dquote +:+ "ClientId" +:+ dquote +:+ ":"
  +:+ dquote +:+ "test-client" +:+ dquote +:+ "}".

(** A body [JSON.stringify] throws on: [{ n: BigInt(1) }]. *)
Definition bigint_body : Value := JObj [("n", JBigInt 1)].

Definition errorData : Value :=
  JObj [("__type", JStr "NotAuthorizedException");
        ("message", JStr "Invalid credentials")].

(** The environment of the test that sets three variables. *)
Definition env_all : Env :=
  {[ "AWS_ACCESS_KEY_ID" := "AKIA_ENV";
     "AWS_SECRET_ACCESS_KEY" := "secret_env";
     "AWS_REGION" := "us-west-2" ]}.

Definition env_default_region : Env :=
  {[ "AWS_DEFAULT_REGION" := "ap-southeast-1" ]}.

(** Region and credentials given, call signed. *)
Definition explicit_options : Options.t Value :=
  Options.mk (Some "us-east-1") (Some "AKIA_PARAM") (Some "secret_param")
    client_body (Some true).

(** Region and credentials given, call not signed. *)
Definition unsigned_options : Options.t Value :=
  Options.mk (Some "us-east-1") (Some "AKIA123") (Some "secret123")
    client_body (Some false).

(** Region and credentials given as empty strings. *)
Definition empty_options : Options.t Value :=
  Options.mk (Some EmptyString) (Some EmptyString) (Some EmptyString)
    client_body (Some true).

(** Nothing given but the body. *)
Definition bare_options : Options.t Value :=
  Options.mk None None None client_body None.

(** Region and credentials given, call signed, and a body that has no
    JSON text. *)
Definition bigint_options : Options.t Value :=
  Options.mk (Some "us-east-1") (Some "AKIA_PARAM") (Some "secret_param")
    bigint_body (Some true).

(** Nothing given but a body that has no JSON text. *)
Definition bare_bigint_options : Options.t Value :=
  Options.mk None None None bigint_body None.

(** Nothing given but the body, call signed: the signer of this module
    throws for want of credentials. *)
Definition signed_bare_options : Options.t Value :=
  Options.mk None None None client_body (Some true).

Definition fetchError : Error :=
  {| name := "Error"; message := "Network error" |}.

Definition syntaxError : Error :=
  {| name := "SyntaxError"; message := "Unexpected token in JSON" |}.

(** The collaborators of a run: the serializer and signer above, and a
    transport that answers 200 with an empty object, answers 400 with an
    error-shaped body, rejects, or answers with a body that cannot be
    parsed. *)
Definition collaborators (p : Promise Error (Response Error Value))
  : Collaborators Error Value :=
  {| JSON_stringify := stringify;
     aws4_sign := mockSign;
     fetch := mockFetch p |}.

Definition ok : Collaborators Error Value :=
  collaborators (createMockResponse (JObj []) 200).
Definition answering_400 : Collaborators Error Value :=
  collaborators (createMockResponse errorData 400).
Definition rejecting : Collaborators Error Value :=
  collaborators (Rejected fetchError).
Definition unparsable : Collaborators Error Value :=
  collaborators (Fulfilled {| status := 200; json := Rejected syntaxError |}).

End Mock.


(** * Properties *)

(** ** Truthiness and [||] *)

Lemma truthy_false_iff (v : option string) :
  truthy v = false <-> v = None \/ v = Some EmptyString.
Proof.
  destruct v as [[|c s]|]; simpl; split; intros H;
    solve [ reflexivity | discriminate H | left; reflexivity
          | right; reflexivity | destruct H as [H|H]; discriminate H ].
Qed.

Lemma truthy_Some (s : string) : s <> EmptyString -> truthy (Some s) = true.
Proof. destruct s; [intros H; contradiction H; reflexivity | reflexivity]. Qed.

Lemma js_or_truthy (a b : option string) : truthy a = true -> js_or a b = a.
Proof. unfold js_or; intros ->; reflexivity. Qed.

Lemma js_or_falsy (a b : option string) : truthy a = false -> js_or a b = b.
Proof. unfold js_or; intros ->; reflexivity. Qed.

Lemma js_or_None_l (b : option string) : js_or None b = b.
Proof. reflexivity. Qed.

Lemma js_or_None_r (a : option string) :
  js_or a None = None -> truthy a = false.
Proof.
  destruct a as [[|c s]|]; unfold js_or; simpl; intros H;
    [reflexivity | discriminate H | reflexivity].
Qed.

(** ** The computation type is a monad *)

Lemma bind_ret_l {Err Any A B} (a : A) (k : A -> M Err Any B) :
  bind (ret a) k = k a.
Proof. unfold bind, ret. destruct (k a). reflexivity. Qed.

Lemma bind_ret_r {Err Any A} (m : M Err Any A) : bind m ret = m.
Proof.
  destruct m as [l [a|e]]; unfold bind, ret; [|reflexivity].
  rewrite app_nil_r. reflexivity.
Qed.

Lemma bind_assoc {Err Any A B C} (m : M Err Any A)
    (k : A -> M Err Any B) (h : B -> M Err Any C) :
  bind (bind m k) h = bind m (fun a => bind (k a) h).
Proof.
  destruct m as [l [a|e]]; unfold bind; [|reflexivity].
  destruct (k a) as [l' [b|e]]; [|reflexivity].
  destruct (h b) as [l'' r]. rewrite app_assoc. reflexivity.
Qed.

(** ** The run, as two equations *)

Section Run.
Context {Err Any : Type} {outside : Collaborators Err Any}.
Variable target : string.
Variable options : Options.t Any.
Variable env : Env.

(** The calls of a run: [JSON.stringify]; unless it threw, [aws4.sign]
    when the call is signed; [fetch] unless one of the two threw;
    [res.json()] when [fetch] answered. *)
Lemma calls_eq :
  calls target options env =
  (call_stringify (Options.body options)
   :: match descriptor target options env with
      | Throw _ => []
      | Return d0 =>
          (if truthy_flag (Options.signed options)
           then [call_sign d0 (credentials options env)]
           else [])
          ++ match at_dispatch target options env with
             | Throw _ => []
             | Return d =>
                 call_fetch (url options env) d
                 :: match fetch (url options env) d with
                    | Rejected _ => []
                    | Fulfilled res => [call_json res]
                    end
             end
      end)%list.
Proof.
  unfold calls, cognitoFetch_body, at_dispatch, descriptor, bind, stringify,
    sign, send, read_json, ret.
  destruct (JSON_stringify (Options.body options)) as [text|e];
    [|reflexivity].
  destruct (truthy_flag (Options.signed options)); simpl.
  - destruct (aws4_sign _ _) as [d|e]; simpl; [|reflexivity].
    destruct (fetch _ d) as [res|e]; reflexivity.
  - destruct (fetch _ _) as [res|e]; reflexivity.
Qed.

(** How the promise settles. *)
Lemma cognitoFetch_eq :
  cognitoFetch target options env =
  match at_dispatch target options env with
  | Throw e => Rejected e
  | Return d =>
      match fetch (url options env) d with
      | Rejected e => Rejected e
      | Fulfilled res => json res
      end
  end.
Proof.
  unfold cognitoFetch, cognitoFetch_body, at_dispatch, descriptor, bind,
    stringify, sign, send, read_json, ret.
  destruct (JSON_stringify (Options.body options)) as [text|e];
    [|reflexivity].
  destruct (truthy_flag (Options.signed options)); simpl.
  - destruct (aws4_sign _ _) as [d|e]; simpl; [|reflexivity].
    destruct (fetch _ d) as [res|e]; simpl; [|reflexivity].
    destruct (json res); reflexivity.
  - destruct (fetch _ _) as [res|e]; simpl; [|reflexivity].
    destruct (json res); reflexivity.
Qed.

(** The object is built exactly when [JSON.stringify] returns, and then
    holds what it returned as its [body]. *)
Lemma descriptor_Return (d : Request.t) :
  descriptor target options env = Return d <->
  exists text, JSON_stringify (Options.body options) = Return text
               /\ d = requestOptions target options env text.
Proof.
  unfold descriptor.
  destruct (JSON_stringify (Options.body options)) as [text|e]; split.
  - intros H. injection H as <-. eauto.
  - intros (text' & H & ->). injection H as ->. reflexivity.
  - discriminate.
  - intros (text' & H & _). discriminate H.
Qed.


Lemma at_dispatch_unsigned :
  truthy_flag (Options.signed options) = false ->
  at_dispatch target options env = descriptor target options env.
Proof.
  unfold at_dispatch. intros ->.
  destruct (descriptor target options env); reflexivity.
Qed.

Lemma at_dispatch_signed (d : Request.t) :
  truthy_flag (Options.signed options) = true ->
  descriptor target options env = Return d ->
  at_dispatch target options env = aws4_sign d (credentials options env).
Proof. unfold at_dispatch. intros -> ->. reflexivity. Qed.

(** Line 57 is reached only with an object that was built. *)
Lemma at_dispatch_Return (d : Request.t) :
  at_dispatch target options env = Return d ->
  exists d0, descriptor target options env = Return d0.
Proof.
  unfold at_dispatch.
  destruct (descriptor target options env) as [d0|e]; [eauto|discriminate].
Qed.

Lemma sign_call_inv (d : Request.t) (c : Credentials.t) :
  In (call_sign d c) (calls target options env) ->
  truthy_flag (Options.signed options) = true
  /\ descriptor target options env = Return d
  /\ c = credentials options env.
Proof.
  rewrite calls_eq. simpl. intros [H|H]; [discriminate H|].
  unfold at_dispatch in H.
  destruct (descriptor target options env) as [d0|e]; [|destruct H].
  apply in_app_or in H. destruct H as [H|H].
  - destruct (truthy_flag (Options.signed options)); [|destruct H].
    destruct H as [H|[]]. injection H as <- <-. auto.
  - destruct (if truthy_flag (Options.signed options) then _ else _)
      as [d'|e]; [|destruct H].
    destruct H as [H|H]; [discriminate H|].
    destruct (fetch _ d'); [destruct H as [H|[]]; discriminate H|destruct H].
Qed.

Lemma fetch_call_inv (u : string) (d : Request.t) :
  In (call_fetch u d) (calls target options env) ->
  u = url options env /\ at_dispatch target options env = Return d.
Proof.
  rewrite calls_eq. simpl. intros [H|H]; [discriminate H|].
  destruct (descriptor target options env) as [d0|e]; [|destruct H].
  apply in_app_or in H. destruct H as [H|H].
  - destruct (truthy_flag (Options.signed options)); [|destruct H].
    destruct H as [H|[]]. discriminate H.
  - destruct (at_dispatch target options env) as [d'|e]; [|destruct H].
    destruct H as [H|H]; [injection H as <- <-; auto|].
    destruct (fetch _ d'); [destruct H as [H|[]]; discriminate H|destruct H].
Qed.

Lemma fetch_call_intro (d : Request.t) :
  at_dispatch target options env = Return d ->
  In (call_fetch (url options env) d) (calls target options env).
Proof.
  intros H. rewrite calls_eq, H.
  destruct (at_dispatch_Return d H) as [d0 ->].
  right. apply in_or_app. right. left. reflexivity.
Qed.

Lemma json_call_inv (res : Response Err Any) :
  In (call_json res) (calls target options env) ->
  exists d, at_dispatch target options env = Return d
            /\ fetch (url options env) d = Fulfilled res.
Proof.
  rewrite calls_eq. simpl. intros [H|H]; [discriminate H|].
  destruct (descriptor target options env) as [d0|e]; [|destruct H].
  apply in_app_or in H. destruct H as [H|H].
  - destruct (truthy_flag (Options.signed options)); [|destruct H].
    destruct H as [H|[]]. discriminate H.
  - destruct (at_dispatch target options env) as [d'|e]; [|destruct H].
    destruct H as [H|H]; [discriminate H|].
    destruct (fetch _ d') as [res'|e] eqn:E; [|destruct H].
    destruct H as [H|[]]. injection H as <-. eauto.
Qed.

End Run.

(** ** Where a rejection comes from *)

(** Splits a goal about the run into the runs there are: the serializer
    threw or returned, the call is signed or not, the signer threw or
    returned, the transport rejected or answered. *)
Ltac run_cases :=
  rewrite ?calls_eq, ?cognitoFetch_eq; unfold at_dispatch, descriptor;
  repeat match goal with
    | |- context [JSON_stringify ?v] => destruct (JSON_stringify v) eqn:?
    | |- context [if ?b then _ else _] => destruct b eqn:?
    | |- context [match ?x with Return _ => _ | Throw _ => _ end] =>
        destruct x eqn:?
    | |- context [match ?x with Fulfilled _ => _ | Rejected _ => _ end] =>
        destruct x eqn:?
    end;
  simpl.

Section Origin.
Context {Err Any : Type} {outside : Collaborators Err Any}.
Variable target : string.
Variable options : Options.t Any.
Variable env : Env.

(** A rejected call was rejected by the last outside call made, with the
    error that call failed with. *)
Lemma rejection_origin (e : Err) :
  cognitoFetch target options env = Rejected e ->
  exists c, last (calls target options env) = Some c /\ failed_with e c.
Proof.
  run_cases; intros H; try discriminate H; try injection H as ->;
    eexists; (split; [reflexivity|]); simpl; assumption.
Qed.

(** A fulfilled call made every outside call it could, ending with
    [res.json()]. *)
Lemma fulfilment_origin (v : Any) :
  cognitoFetch target options env = Fulfilled v ->
  exists res, last (calls target options env) = Some (call_json res)
              /\ json res = Fulfilled v.
Proof.
  run_cases; intros H; try discriminate H;
    eexists; (split; [reflexivity|]); assumption.
Qed.

(** The transport is called at most once. *)
Lemma fetch_at_most_once :
  length (List.filter is_fetch (calls target options env)) <= 1.
Proof. run_cases; lia. Qed.

End Origin.

(** ** Resolution of region and credentials *)

Section Claims.
Context {Err Any : Type} {outside : Collaborators Err Any}.

(** C1, as amended.  When [options] gives a non-empty [region],
    [accessKeyId] and [secretAccessKey], the three resolved values are
    those, whatever [process.env] holds; the URL is built from that
    region, every call to [aws4.sign] receives that region and that
    credential pair, and every call to [fetch] receives that URL. *)
Theorem explicit_nonempty_values_override_env
    (target : string) (options : Options.t Any) (env : Env)
    (r a s : string) :
  Options.region options = Some r -> r <> EmptyString ->
  Options.accessKeyId options = Some a -> a <> EmptyString ->
  Options.secretAccessKey options = Some s -> s <> EmptyString ->
  region options env = Some r
  /\ accessKeyId options env = Some a
  /\ secretAccessKey options env = Some s
  /\ url options env = "https://cognito-idp." +:+ r +:+ ".amazonaws.com/"
  /\ (forall d c, In (call_sign d c) (calls target options env) ->
        Request.region d = Some r
        /\ Request.url d = "https://cognito-idp." +:+ r +:+ ".amazonaws.com/"
        /\ c = Credentials.mk (Some a) (Some s))
  /\ (forall u d, In (call_fetch u d) (calls target options env) ->
        u = "https://cognito-idp." +:+ r +:+ ".amazonaws.com/").
Proof.
  intros Hr Hr' Ha Ha' Hs Hs'.
  assert (Er : region options env = Some r).
  { unfold region. rewrite Hr.
    rewrite (js_or_truthy (Some r)) by now apply truthy_Some.
    now apply js_or_truthy, truthy_Some. }
  assert (Ea : accessKeyId options env = Some a).
  { unfold accessKeyId. rewrite Ha. now apply js_or_truthy, truthy_Some. }
  assert (Es : secretAccessKey options env = Some s).
  { unfold secretAccessKey. rewrite Hs. now apply js_or_truthy, truthy_Some. }
  assert (Eu : url options env
               = "https://cognito-idp." +:+ r +:+ ".amazonaws.com/").
  { unfold url. rewrite Er. reflexivity. }
  split; [exact Er|]. split; [exact Ea|]. split; [exact Es|].
  split; [exact Eu|]. split.
  - intros d c H. apply sign_call_inv in H. destruct H as (_ & Hd & ->).
    apply descriptor_Return in Hd. destruct Hd as (text & _ & ->).
    split; [exact Er|]. split; [exact Eu|].
    unfold credentials. rewrite Ea, Es. reflexivity.
  - intros u d H. apply fetch_call_inv in H. destruct H as [-> _]. exact Eu.
Qed.

(** C2.  Whatever the target, when the region resolves to a string [r]
    the URL is the text before the substitution point, then [r]
    unchanged, then the text after it; [requestOptions.url] holds it,
    and it is the first argument of every call to [fetch], which is
    made whenever line 57 is reached. *)
Theorem url_is_template_at_region
    (target : string) (options : Options.t Any) (env : Env) (r : string) :
  region options env = Some r ->
  url options env = "https://cognito-idp." +:+ r +:+ ".amazonaws.com/"
  /\ (forall d, descriptor target options env = Return d ->
        Request.url d = "https://cognito-idp." +:+ r +:+ ".amazonaws.com/")
  /\ (forall u d, In (call_fetch u d) (calls target options env) ->
        u = "https://cognito-idp." +:+ r +:+ ".amazonaws.com/")
  /\ (forall d, at_dispatch target options env = Return d ->
        In (call_fetch ("https://cognito-idp." +:+ r +:+ ".amazonaws.com/") d)
           (calls target options env)).
Proof.
  intros Er.
  assert (Eu : url options env
               = "https://cognito-idp." +:+ r +:+ ".amazonaws.com/").
  { unfold url. rewrite Er. reflexivity. }
  split; [exact Eu|]. split; [|split].
  - intros d Hd. apply descriptor_Return in Hd.
    destruct Hd as (text & _ & ->). exact Eu.
  - intros u d H. apply fetch_call_inv in H. destruct H as [-> _]. exact Eu.
  - intros d H. rewrite <- Eu. now apply fetch_call_intro.
Qed.

(** C3.  When [options] gives no region and no credentials, the region
    is [AWS_REGION] if that is set to a non-empty string and otherwise
    whatever [AWS_DEFAULT_REGION] is; the access-key id and the secret
    are whatever their one variable is; with the variables unset the
    resolved value is [undefined].  Resolution raises nothing: whenever
    the promise is rejected, the error is the one the last outside call
    failed with. *)
Theorem absent_values_resolve_from_env
    (target : string) (options : Options.t Any) (env : Env) :
  Options.region options = None ->
  Options.accessKeyId options = None ->
  Options.secretAccessKey options = None ->
  (forall r, env !! "AWS_REGION" = Some r -> r <> EmptyString ->
     region options env = Some r)
  /\ (env !! "AWS_REGION" = None \/ env !! "AWS_REGION" = Some EmptyString ->
      region options env = env !! "AWS_DEFAULT_REGION")
  /\ accessKeyId options env = env !! "AWS_ACCESS_KEY_ID"
  /\ secretAccessKey options env = env !! "AWS_SECRET_ACCESS_KEY"
  /\ (env !! "AWS_REGION" = None -> env !! "AWS_DEFAULT_REGION" = None ->
      region options env = None)
  /\ (env !! "AWS_ACCESS_KEY_ID" = None -> accessKeyId options env = None)
  /\ (env !! "AWS_SECRET_ACCESS_KEY" = None ->
      secretAccessKey options env = None)
  /\ (forall e, cognitoFetch target options env = Rejected e ->
        exists c, last (calls target options env) = Some c
                  /\ failed_with e c).
Proof.
  intros Hr Ha Hs.
  unfold region, accessKeyId, secretAccessKey, AWS_REGION, AWS_DEFAULT_REGION,
    AWS_ACCESS_KEY_ID, AWS_SECRET_ACCESS_KEY.
  rewrite Hr, Ha, Hs, !js_or_None_l.
  split; [|split; [|split; [|split; [|split; [|split; [|split]]]]]].
  - intros r E Hne. rewrite E. now apply js_or_truthy, truthy_Some.
  - intros H. apply js_or_falsy, truthy_false_iff. exact H.
  - reflexivity.
  - reflexivity.
  - intros -> ->. reflexivity.
  - intros ->. reflexivity.
  - intros ->. reflexivity.
  - intros e. apply rejection_origin.
Qed.

(** C9, as amended.  When the region resolves to [undefined], nothing
    is raised on that account: the URL is built with the text
    [undefined] where the region goes and the request object holds it;
    that URL is dispatched whenever [JSON.stringify] returns and, if
    the call is signed, [aws4.sign] returns; no other URL is
    dispatched; and a rejection is always the failure of the last
    outside call. *)
Theorem undefined_region_is_dispatched
    (target : string) (options : Options.t Any) (env : Env) :
  region options env = None ->
  url options env = "https://cognito-idp.undefined.amazonaws.com/"
  /\ (forall d, descriptor target options env = Return d ->
        Request.region d = None
        /\ Request.url d = "https://cognito-idp.undefined.amazonaws.com/")
  /\ (forall text,
        JSON_stringify (Options.body options) = Return text ->
        truthy_flag (Options.signed options) = false ->
        In (call_fetch "https://cognito-idp.undefined.amazonaws.com/"
              (requestOptions target options env text))
           (calls target options env))
  /\ (forall text d,
        JSON_stringify (Options.body options) = Return text ->
        truthy_flag (Options.signed options) = true ->
        aws4_sign (requestOptions target options env text)
          (credentials options env) = Return d ->
        In (call_fetch "https://cognito-idp.undefined.amazonaws.com/" d)
           (calls target options env))
  /\ (forall u d, In (call_fetch u d) (calls target options env) ->
        u = "https://cognito-idp.undefined.amazonaws.com/")
  /\ (forall e, cognitoFetch target options env = Rejected e ->
        exists c, last (calls target options env) = Some c
                  /\ failed_with e c).
Proof.
  intros Er.
  assert (Eu : url options env = "https://cognito-idp.undefined.amazonaws.com/").
  { unfold url. rewrite Er. reflexivity. }
  split; [exact Eu|]. split; [|split; [|split; [|split]]].
  - intros d Hd. apply descriptor_Return in Hd.
    destruct Hd as (text & _ & ->). split; [exact Er|exact Eu].
  - intros text Ht Hflag. rewrite <- Eu. apply fetch_call_intro.
    rewrite at_dispatch_unsigned by exact Hflag.
    apply descriptor_Return. eauto.
  - intros text d Ht Hflag Hs. rewrite <- Eu. apply fetch_call_intro.
    rewrite (at_dispatch_signed _ _ _ (requestOptions target options env text))
      by (try exact Hflag; apply descriptor_Return; eauto).
    exact Hs.
  - intros u d H. apply fetch_call_inv in H. destruct H as [-> _]. exact Eu.
  - intros e. apply rejection_origin.
Qed.

(** C10.  A falsy explicit value, the empty string included, counts for
    nothing: the resolved value is then the one the environment alone
    gives. *)
Theorem falsy_explicit_value_falls_back
    (v : option string) (options : Options.t Any) (env : Env) :
  truthy v = false ->
  (Options.region options = v ->
     region options env
     = js_or (env !! "AWS_REGION") (env !! "AWS_DEFAULT_REGION"))
  /\ (Options.accessKeyId options = v ->
      accessKeyId options env = env !! "AWS_ACCESS_KEY_ID")
  /\ (Options.secretAccessKey options = v ->
      secretAccessKey options env = env !! "AWS_SECRET_ACCESS_KEY").
Proof.
  intros Hv. unfold region, accessKeyId, secretAccessKey.
  repeat split; intros ->; rewrite (js_or_falsy v) by exact Hv; reflexivity.
Qed.

End Claims.

(** ** Serialization, signing, dispatch and the result *)

Section Dispatch.
Context {Err Any : Type} {outside : Collaborators Err Any}.

Lemma headers_lookup_target (target : string) :
  headers target !! "x-amz-target" = Some target.
Proof. unfold headers. apply lookup_insert_eq. Qed.

Lemma headers_lookup_content_type (target : string) :
  headers target !! "content-type" = Some "application/x-amz-json-1.1".
Proof.
  unfold headers. rewrite lookup_insert_ne by discriminate.
  apply lookup_singleton_eq.
Qed.

Lemma headers_lookup_other (target k : string) :
  k <> "x-amz-target" -> k <> "content-type" -> headers target !! k = None.
Proof.
  intros H1 H2. unfold headers.
  rewrite lookup_insert_ne by (intros E; apply H1; symmetry; exact E).
  apply lookup_singleton_ne. intros E; apply H2; symmetry; exact E.
Qed.

(** C4.  The request object is built with [body] set to what
    [JSON.stringify(options.body)] returned; that call is the first
    outside call of the run and is made once; every call to [aws4.sign]
    comes after it and receives an object whose [body] is what it
    returned; and when the call is not signed, that is the [body] of
    what [fetch] receives. *)
Theorem body_is_serialized_before_signing
    (target : string) (options : Options.t Any) (env : Env) :
  (forall d, descriptor target options env = Return d ->
     JSON_stringify (Options.body options) = Return (Request.body d))
  /\ (exists rest,
        calls target options env = call_stringify (Options.body options) :: rest
        /\ forall v, ~ In (call_stringify v) rest)
  /\ (forall d c, In (call_sign d c) (calls target options env) ->
        JSON_stringify (Options.body options) = Return (Request.body d)
        /\ precedes (call_stringify (Options.body options)) (call_sign d c)
             (calls target options env))
  /\ (forall u d, In (call_fetch u d) (calls target options env) ->
        truthy_flag (Options.signed options) = false ->
        JSON_stringify (Options.body options) = Return (Request.body d)).
Proof.
  assert (A : forall d, descriptor target options env = Return d ->
                JSON_stringify (Options.body options)
                = Return (Request.body d)).
  { intros d Hd. apply descriptor_Return in Hd.
    destruct Hd as (text & Ht & ->). exact Ht. }
  split; [exact A|]. split; [|split].
  - rewrite calls_eq. eexists. split; [reflexivity|].
    intros v H.
    destruct (descriptor target options env) as [d0|e]; [|destruct H].
    apply in_app_or in H. destruct H as [H|H].
    + destruct (truthy_flag (Options.signed options)); [|destruct H].
      destruct H as [H|[]]. discriminate H.
    + destruct (at_dispatch _ _ _) as [d|e]; [|destruct H].
      destruct H as [H|H]; [discriminate H|].
      destruct (fetch _ d); [destruct H as [H|[]]; discriminate H|destruct H].
  - intros d c H. apply sign_call_inv in H. destruct H as (Hflag & Hd & ->).
    split; [exact (A d Hd)|].
    rewrite calls_eq, Hd, Hflag. exists [], []. eexists. reflexivity.
  - intros u d H Hflag. apply fetch_call_inv in H. destruct H as [_ H].
    rewrite at_dispatch_unsigned in H by exact Hflag. exact (A d H).
Qed.

(** C5.  When [options.signed] is [false] or missing, [aws4.sign] is not
    called, [fetch] is called with the object as built, and the headers
    of what [fetch] receives are [x-amz-target] and [content-type] and
    no other, whatever credentials [options] and [process.env] hold. *)
Theorem unsigned_call_is_not_signed
    (target : string) (options : Options.t Any) (env : Env) :
  Options.signed options = None \/ Options.signed options = Some false ->
  (forall d c, ~ In (call_sign d c) (calls target options env))
  /\ (forall d, descriptor target options env = Return d ->
        In (call_fetch (url options env) d) (calls target options env))
  /\ (forall u d, In (call_fetch u d) (calls target options env) ->
        Request.headers d !! "x-amz-target" = Some target
        /\ Request.headers d !! "content-type"
           = Some "application/x-amz-json-1.1"
        /\ forall k, k <> "x-amz-target" -> k <> "content-type" ->
             Request.headers d !! k = None).
Proof.
  intros Hsigned.
  assert (Hflag : truthy_flag (Options.signed options) = false).
  { destruct Hsigned as [-> | ->]; reflexivity. }
  split; [|split].
  - intros d c H. apply sign_call_inv in H. destruct H as (H & _).
    rewrite Hflag in H. discriminate H.
  - intros d Hd. apply fetch_call_intro.
    rewrite at_dispatch_unsigned by exact Hflag. exact Hd.
  - intros u d H. apply fetch_call_inv in H. destruct H as [_ H].
    rewrite at_dispatch_unsigned in H by exact Hflag.
    apply descriptor_Return in H. destruct H as (text & _ & ->).
    split; [apply headers_lookup_target|].
    split; [apply headers_lookup_content_type|].
    intros k. apply headers_lookup_other.
Qed.

(** C6, as amended.  When [options.signed] is [true] and
    [JSON.stringify(options.body)] returns, [aws4.sign] is called once,
    with the object as built (whose headers are [x-amz-target] and
    [content-type]) and the resolved credential pair.  If it returns,
    [fetch] is called with the object as [aws4.sign] left it, so with
    every header found there; the two headers of the built object are
    among them when [aws4.sign] only added to the headers.  If it
    throws, [fetch] is not called and the promise is rejected with what
    was thrown. *)
Theorem signed_call_is_signed_once
    (target : string) (options : Options.t Any) (env : Env)
    (text : option string) :
  Options.signed options = Some true ->
  JSON_stringify (Options.body options) = Return text ->
  List.filter is_sign (calls target options env)
  = [call_sign (requestOptions target options env text)
       (credentials options env)]
  /\ credentials options env
     = {| Credentials.accessKeyId := accessKeyId options env;
          Credentials.secretAccessKey := secretAccessKey options env |}
  /\ Request.headers (requestOptions target options env text)
     = {[ "x-amz-target" := target;
          "content-type" := "application/x-amz-json-1.1" ]}
  /\ (forall d',
        aws4_sign (requestOptions target options env text)
          (credentials options env)
        = Return d' ->
        In (call_fetch (url options env) d') (calls target options env)
        /\ (forall u d, In (call_fetch u d) (calls target options env) ->
              d = d')
        /\ (Request.headers (requestOptions target options env text)
            ⊆ Request.headers d' ->
            Request.headers d' !! "x-amz-target" = Some target
            /\ Request.headers d' !! "content-type"
               = Some "application/x-amz-json-1.1"))
  /\ (forall e,
        aws4_sign (requestOptions target options env text)
          (credentials options env)
        = Throw e ->
        (forall u d, ~ In (call_fetch u d) (calls target options env))
        /\ cognitoFetch target options env = Rejected e).
Proof.
  intros Hsigned Htext.
  assert (Hflag : truthy_flag (Options.signed options) = true).
  { rewrite Hsigned. reflexivity. }
  assert (Hd : descriptor target options env
               = Return (requestOptions target options env text)).
  { apply descriptor_Return. eauto. }
  assert (Hat : at_dispatch target options env
                = aws4_sign (requestOptions target options env text)
                    (credentials options env)).
  { apply at_dispatch_signed; assumption. }
  split; [|split; [reflexivity|split; [reflexivity|split]]].
  - rewrite calls_eq, Hd, Hflag. simpl.
    destruct (at_dispatch _ _ _) as [d|e]; [|reflexivity]. simpl.
    destruct (fetch _ d); reflexivity.
  - intros d' Hsign.
    assert (Hready : at_dispatch target options env = Return d').
    { rewrite Hat. exact Hsign. }
    split; [now apply fetch_call_intro|]. split.
    + intros u d H. apply fetch_call_inv in H. destruct H as [_ H].
      rewrite Hready in H. injection H as <-. reflexivity.
    + intros Hsub. split.
      * eapply lookup_weaken; [apply headers_lookup_target|exact Hsub].
      * eapply lookup_weaken; [apply headers_lookup_content_type|exact Hsub].
  - intros e Hsign.
    assert (Hready : at_dispatch target options env = Throw e).
    { rewrite Hat. exact Hsign. }
    split.
    + intros u d H. apply fetch_call_inv in H. destruct H as [_ H].
      rewrite Hready in H. discriminate H.
    + rewrite cognitoFetch_eq, Hready. reflexivity.
Qed.

(** C7.  Whatever response [fetch] resolves to, the promise settles as
    [res.json()] does: fulfilled with the parsed body when there is one.
    The status is not looked at: changing the status of every response
    changes nothing in how the promise settles. *)
Theorem result_is_deserialized_body
    (target : string) (options : Options.t Any) (env : Env) :
  (forall u d res, In (call_fetch u d) (calls target options env) ->
     fetch u d = Fulfilled res ->
     cognitoFetch target options env = json res)
  /\ (forall u d res v, In (call_fetch u d) (calls target options env) ->
        fetch u d = Fulfilled res -> json res = Fulfilled v ->
        cognitoFetch target options env = Fulfilled v)
  /\ (forall f : Z -> Z,
        cognitoFetch (outside := with_fetch (restatus f fetch) outside)
          target options env
        = cognitoFetch target options env).
Proof.
  assert (A : forall u d res, In (call_fetch u d) (calls target options env) ->
                fetch u d = Fulfilled res ->
                cognitoFetch target options env = json res).
  { intros u d res H Hres. apply fetch_call_inv in H. destruct H as [-> H].
    rewrite cognitoFetch_eq, H, Hres. reflexivity. }
  split; [exact A|]. split.
  - intros u d res v H Hres Hv. rewrite <- Hv. eapply A; eassumption.
  - intros f. rewrite !cognitoFetch_eq.
    change (at_dispatch (outside := with_fetch (restatus f fetch) outside)
              target options env)
      with (at_dispatch target options env).
    destruct (at_dispatch target options env) as [d|e]; [|reflexivity].
    change (fetch (Collaborators := with_fetch (restatus f fetch) outside)
              (url options env) d)
      with (restatus f fetch (url options env) d).
    unfold restatus. destruct (fetch (url options env) d); reflexivity.
Qed.

(** C8.  When [fetch] rejects with [e], or [res.json()] rejects with
    [e], the promise is rejected with [e] and that call is the last one
    made.  In general a rejected promise carries the error its last
    outside call failed with, and [fetch] is called at most once. *)
Theorem failures_reject_unmodified
    (target : string) (options : Options.t Any) (env : Env) (e : Err) :
  (forall u d, In (call_fetch u d) (calls target options env) ->
     fetch u d = Rejected e ->
     cognitoFetch target options env = Rejected e
     /\ last (calls target options env) = Some (call_fetch u d))
  /\ (forall res, In (call_json res) (calls target options env) ->
        json res = Rejected e ->
        cognitoFetch target options env = Rejected e
        /\ last (calls target options env) = Some (call_json res))
  /\ (cognitoFetch target options env = Rejected e ->
      exists c, last (calls target options env) = Some c
                /\ failed_with e c)
  /\ length (List.filter is_fetch (calls target options env)) <= 1.
Proof.
  split; [|split; [|split]].
  - intros u d H Hrej. apply fetch_call_inv in H. destruct H as [-> H].
    rewrite cognitoFetch_eq, calls_eq, H, Hrej. split; [reflexivity|].
    destruct (at_dispatch_Return _ _ _ d H) as [d0 ->].
    destruct (truthy_flag (Options.signed options)); reflexivity.
  - intros res H Hrej. apply json_call_inv in H. destruct H as (d & H & Hres).
    rewrite cognitoFetch_eq, calls_eq, H, Hres. split; [exact Hrej|].
    destruct (at_dispatch_Return _ _ _ d H) as [d0 ->].
    destruct (truthy_flag (Options.signed options)); reflexivity.
  - apply rejection_origin.
  - apply fetch_at_most_once.
Qed.

End Dispatch.

(** * Concrete runs *)

(** ** The repository's tests, replayed *)

Example mock_stringify_client_body :
  Mock.stringify Mock.client_body = Return (Some Mock.client_text).
Proof. reflexivity. Qed.

Example mock_stringify_undefined_and_bigint :
  Mock.stringify Mock.JUndefined = Return None
  /\ Mock.stringify
       (Mock.JArr [Mock.JUndefined;
                   Mock.JObj [("a", Mock.JUndefined);
                              ("b", Mock.JBool true)]])
     = Return (Some ("[null,{" +:+ Mock.dquote +:+ "b" +:+ Mock.dquote
                     +:+ ":true}]"))
  /\ Mock.stringify Mock.bigint_body = Throw Mock.typeError.
Proof. repeat split. Qed.

Example basic_unsigned_request :
  let options :=
    Options.mk (Some "us-east-1") None None Mock.client_body None in
  let d :=
    requestOptions Mock.target options ∅ (Some Mock.client_text) in
  calls (outside := Mock.ok) Mock.target options ∅
  = [call_stringify Mock.client_body;
     call_fetch "https://cognito-idp.us-east-1.amazonaws.com/" d;
     call_json {| status := 200; json := Fulfilled (Mock.JObj []) |}]
  /\ Request.method d = "POST"
  /\ Request.service d = "cognito-idp"
  /\ Request.region d = Some "us-east-1"
  /\ Request.headers d !! "x-amz-target" = Some Mock.target
  /\ Request.headers d !! "content-type" = Some "application/x-amz-json-1.1"
  /\ aborted (Request.signal d) = false
  /\ cognitoFetch (outside := Mock.ok) Mock.target options ∅
     = Fulfilled (Mock.JObj []).
Proof. vm_compute. repeat split. Qed.

Example region_from_AWS_REGION :
  url Mock.bare_options {[ "AWS_REGION" := "eu-central-1" ]}
  = "https://cognito-idp.eu-central-1.amazonaws.com/".
Proof. vm_compute. reflexivity. Qed.

Example region_from_AWS_DEFAULT_REGION :
  url Mock.bare_options Mock.env_default_region
  = "https://cognito-idp.ap-southeast-1.amazonaws.com/".
Proof. vm_compute. reflexivity. Qed.

Example signed_request_adds_headers :
  exists d,
    last (List.filter is_fetch
            (calls (outside := Mock.ok) Mock.target
               Mock.explicit_options Mock.env_all))
    = Some (call_fetch "https://cognito-idp.us-east-1.amazonaws.com/" d)
    /\ Request.headers d !! "Authorization"
       = Some "AWS4-HMAC-SHA256 Credential=AKIA_PARAM"
    /\ Request.headers d !! "x-amz-target" = Some Mock.target.
Proof. eexists. vm_compute. repeat split. Qed.

Example error_status_is_a_result :
  cognitoFetch (outside := Mock.answering_400) Mock.target
    Mock.unsigned_options ∅
  = Fulfilled Mock.errorData.
Proof. vm_compute. reflexivity. Qed.

Example fetch_error_rejects :
  cognitoFetch (outside := Mock.rejecting) Mock.target
    Mock.unsigned_options ∅
  = Rejected Mock.fetchError.
Proof. vm_compute. reflexivity. Qed.

Example parse_error_rejects :
  cognitoFetch (outside := Mock.unparsable) Mock.target
    Mock.unsigned_options ∅
  = Rejected Mock.syntaxError.
Proof. vm_compute. reflexivity. Qed.

Example undefined_body_is_sent_without_text :
  let options :=
    Options.mk (Some "us-east-1") None None Mock.JUndefined None in
  calls (outside := Mock.ok) Mock.target options ∅
  = [call_stringify Mock.JUndefined;
     call_fetch "https://cognito-idp.us-east-1.amazonaws.com/"
       (requestOptions Mock.target options ∅ None);
     call_json {| status := 200; json := Fulfilled (Mock.JObj []) |}].
Proof. vm_compute. reflexivity. Qed.

(** ** Explicit values that are empty strings *)

(** C1, as stated, fails.  [options] gives a region, an access-key id
    and a secret, each the empty string, and the environment sets
    [AWS_REGION], [AWS_ACCESS_KEY_ID] and [AWS_SECRET_ACCESS_KEY]: the
    three resolved values, and the URL, come from the environment and
    not from [options]. *)
Lemma empty_explicit_values_do_not_override :
  Options.region Mock.empty_options = Some EmptyString
  /\ Options.accessKeyId Mock.empty_options = Some EmptyString
  /\ Options.secretAccessKey Mock.empty_options = Some EmptyString
  /\ region Mock.empty_options Mock.env_all = Some "us-west-2"
  /\ accessKeyId Mock.empty_options Mock.env_all = Some "AKIA_ENV"
  /\ secretAccessKey Mock.empty_options Mock.env_all = Some "secret_env"
  /\ url Mock.empty_options Mock.env_all
     = "https://cognito-idp.us-west-2.amazonaws.com/"
  /\ region Mock.empty_options Mock.env_all
     <> Options.region Mock.empty_options
  /\ accessKeyId Mock.empty_options Mock.env_all
     <> Options.accessKeyId Mock.empty_options
  /\ secretAccessKey Mock.empty_options Mock.env_all
     <> Options.secretAccessKey Mock.empty_options.
Proof.
  vm_compute. repeat split; intros H; discriminate H.
Qed.

(** ** A body that [JSON.stringify] throws on *)

(** C6, as stated, fails.  The call is signed and its body is
    [{ n: BigInt(1) }]: [JSON.stringify] throws at line 47, which is the
    only outside call made; [aws4.sign] is not called, and the promise
    is rejected with the [TypeError]. *)
Lemma signed_call_with_bigint_body_is_not_signed :
  Options.signed Mock.bigint_options = Some true
  /\ Mock.stringify (Options.body Mock.bigint_options) = Throw Mock.typeError
  /\ calls (outside := Mock.ok) Mock.target Mock.bigint_options Mock.env_all
     = [call_stringify Mock.bigint_body]
  /\ List.filter is_sign
       (calls (outside := Mock.ok) Mock.target Mock.bigint_options
          Mock.env_all) = []
  /\ cognitoFetch (outside := Mock.ok) Mock.target Mock.bigint_options
       Mock.env_all
     = Rejected Mock.typeError.
Proof. vm_compute. repeat split. Qed.

(** C9, as stated, fails.  No region is given anywhere, the call is not
    signed and its body is [{ n: BigInt(1) }]: the URL with [undefined]
    is built at line 35, but [JSON.stringify] throws at line 47, [fetch]
    is not called, and the promise is rejected with the [TypeError]. *)
Lemma undefined_region_with_bigint_body_is_not_dispatched :
  region Mock.bare_bigint_options ∅ = None
  /\ url Mock.bare_bigint_options ∅
     = "https://cognito-idp.undefined.amazonaws.com/"
  /\ calls (outside := Mock.ok) Mock.target Mock.bare_bigint_options ∅
     = [call_stringify Mock.bigint_body]
  /\ List.filter is_fetch
       (calls (outside := Mock.ok) Mock.target Mock.bare_bigint_options ∅)
     = []
  /\ cognitoFetch (outside := Mock.ok) Mock.target Mock.bare_bigint_options ∅
     = Rejected Mock.typeError.
Proof. vm_compute. repeat split. Qed.

(** ** The theorems at concrete inputs *)

(** The options and environment of the test of overrides: the explicit
    values win. *)
Lemma explicit_nonempty_values_override_env_witness :
  region Mock.explicit_options Mock.env_all = Some "us-east-1"
  /\ accessKeyId Mock.explicit_options Mock.env_all = Some "AKIA_PARAM"
  /\ secretAccessKey Mock.explicit_options Mock.env_all = Some "secret_param"
  /\ url Mock.explicit_options Mock.env_all
     = "https://cognito-idp.us-east-1.amazonaws.com/".
Proof.
  pose proof
    (explicit_nonempty_values_override_env (outside := Mock.ok)
       Mock.target Mock.explicit_options Mock.env_all
       "us-east-1" "AKIA_PARAM" "secret_param"
       eq_refl ltac:(discriminate) eq_refl ltac:(discriminate)
       eq_refl ltac:(discriminate))
    as (Hr & Ha & Hs & Hu & _).
  exact (conj Hr (conj Ha (conj Hs Hu))).
Defined.

(** An unsigned call with region [us-east-1]: the URL, and the call to
    [fetch] that carries it. *)
Lemma url_is_template_at_region_witness :
  region Mock.unsigned_options Mock.env_all = Some "us-east-1"
  /\ url Mock.unsigned_options Mock.env_all
     = "https://cognito-idp.us-east-1.amazonaws.com/"
  /\ In (call_fetch "https://cognito-idp.us-east-1.amazonaws.com/"
           (requestOptions Mock.target Mock.unsigned_options Mock.env_all
              (Some Mock.client_text)))
        (calls (outside := Mock.ok) Mock.target
           Mock.unsigned_options Mock.env_all).
Proof.
  pose proof
    (url_is_template_at_region (outside := Mock.ok) Mock.target
       Mock.unsigned_options Mock.env_all "us-east-1" eq_refl)
    as (Hu & _ & _ & Hsent).
  split; [reflexivity|]. split; [exact Hu|].
  exact (Hsent _ eq_refl).
Defined.

(** Only [AWS_DEFAULT_REGION] is set: it gives the region, and the
    credentials are [undefined]. *)
Lemma absent_values_resolve_from_env_witness :
  region Mock.bare_options Mock.env_default_region = Some "ap-southeast-1"
  /\ accessKeyId Mock.bare_options Mock.env_default_region = None
  /\ secretAccessKey Mock.bare_options Mock.env_default_region = None.
Proof.
  pose proof
    (absent_values_resolve_from_env (outside := Mock.ok) Mock.target
       Mock.bare_options Mock.env_default_region eq_refl eq_refl eq_refl)
    as (_ & Hr & _ & _ & _ & Ha & Hs & _).
  split; [exact (Hr (or_introl eq_refl))|].
  split; [exact (Ha eq_refl)|exact (Hs eq_refl)].
Defined.

(** A signed call: [JSON.stringify] is called before [aws4.sign]. *)
Lemma body_is_serialized_before_signing_witness :
  precedes (call_stringify Mock.client_body)
    (call_sign
       (requestOptions Mock.target Mock.explicit_options Mock.env_all
          (Some Mock.client_text))
       (credentials Mock.explicit_options Mock.env_all))
    (calls (outside := Mock.ok) Mock.target
       Mock.explicit_options Mock.env_all).
Proof.
  pose proof
    (body_is_serialized_before_signing (outside := Mock.ok) Mock.target
       Mock.explicit_options Mock.env_all)
    as (_ & _ & H & _).
  refine (proj2 (H _ _ _)). right. left. reflexivity.
Defined.

(** [signed: false] with credentials given both ways: no call to
    [aws4.sign], no authorization header. *)
Lemma unsigned_call_is_not_signed_witness :
  Options.signed Mock.unsigned_options = Some false
  /\ List.filter is_sign
       (calls (outside := Mock.ok) Mock.target
          Mock.unsigned_options Mock.env_all) = []
  /\ forall u d,
       In (call_fetch u d)
          (calls (outside := Mock.ok) Mock.target
             Mock.unsigned_options Mock.env_all) ->
       Request.headers d !! "Authorization" = None
       /\ Request.headers d !! "authorization" = None.
Proof.
  pose proof
    (unsigned_call_is_not_signed (outside := Mock.ok) Mock.target
       Mock.unsigned_options Mock.env_all (or_intror eq_refl))
    as (_ & _ & H).
  split; [reflexivity|]. split; [reflexivity|].
  intros u d Hin. destruct (H u d Hin) as (_ & _ & Hk).
  split; apply Hk; discriminate.
Defined.

(** [signed: true] and a body that has a JSON text: one call to
    [aws4.sign], with the explicit credentials. *)
Lemma signed_call_is_signed_once_witness :
  Options.signed Mock.explicit_options = Some true
  /\ Mock.stringify (Options.body Mock.explicit_options)
     = Return (Some Mock.client_text)
  /\ List.filter is_sign
       (calls (outside := Mock.ok) Mock.target
          Mock.explicit_options Mock.env_all)
     = [call_sign
          (requestOptions Mock.target Mock.explicit_options Mock.env_all
             (Some Mock.client_text))
          {| Credentials.accessKeyId := Some "AKIA_PARAM";
             Credentials.secretAccessKey := Some "secret_param" |}].
Proof.
  split; [reflexivity|]. split; [reflexivity|].
  exact (proj1 (signed_call_is_signed_once (outside := Mock.ok)
                  Mock.target Mock.explicit_options Mock.env_all
                  (Some Mock.client_text) eq_refl eq_refl)).
Defined.

(** A 400 response with an error-shaped body is the result. *)
Lemma result_is_deserialized_body_witness :
  cognitoFetch (outside := Mock.answering_400) Mock.target
    Mock.unsigned_options ∅
  = Fulfilled Mock.errorData.
Proof.
  pose proof
    (result_is_deserialized_body (outside := Mock.answering_400)
       Mock.target Mock.unsigned_options ∅)
    as (_ & H & _).
  refine (H _ _ {| status := 400; json := Fulfilled Mock.errorData |} _ _
            eq_refl eq_refl).
  right. left. reflexivity.
Defined.

(** A rejecting transport, and a response whose body does not parse. *)
Lemma failures_reject_unmodified_witness :
  cognitoFetch (outside := Mock.rejecting) Mock.target
    Mock.unsigned_options ∅
  = Rejected Mock.fetchError
  /\ cognitoFetch (outside := Mock.unparsable) Mock.target
       Mock.unsigned_options ∅
     = Rejected Mock.syntaxError.
Proof.
  split.
  - pose proof
      (failures_reject_unmodified (outside := Mock.rejecting) Mock.target
         Mock.unsigned_options ∅ Mock.fetchError)
      as (H & _).
    refine (proj1 (H _ _ _ eq_refl)). right. left. reflexivity.
  - pose proof
      (failures_reject_unmodified (outside := Mock.unparsable) Mock.target
         Mock.unsigned_options ∅ Mock.syntaxError)
      as (_ & H & _).
    refine (proj1 (H {| status := 200; json := Rejected Mock.syntaxError |}
                     _ eq_refl)).
    right. right. left. reflexivity.
Defined.

(** No region anywhere, a body that has a JSON text, no signing: the
    URL with [undefined] is dispatched. *)
Lemma undefined_region_is_dispatched_witness :
  region Mock.bare_options ∅ = None
  /\ url Mock.bare_options ∅ = "https://cognito-idp.undefined.amazonaws.com/"
  /\ In (call_fetch "https://cognito-idp.undefined.amazonaws.com/"
           (requestOptions Mock.target Mock.bare_options ∅
              (Some Mock.client_text)))
        (calls (outside := Mock.ok) Mock.target Mock.bare_options ∅).
Proof.
  pose proof
    (undefined_region_is_dispatched (outside := Mock.ok) Mock.target
       Mock.bare_options ∅ eq_refl)
    as (Hu & _ & Hsent & _).
  split; [reflexivity|]. split; [exact Hu|].
  exact (Hsent (Some Mock.client_text) eq_refl eq_refl).
Defined.

(** Empty strings given as region and credentials: the environment
    decides. *)
Lemma falsy_explicit_value_falls_back_witness :
  truthy (Some EmptyString) = false
  /\ region Mock.empty_options Mock.env_all = Some "us-west-2"
  /\ accessKeyId Mock.empty_options Mock.env_all = Some "AKIA_ENV"
  /\ secretAccessKey Mock.empty_options Mock.env_all = Some "secret_env".
Proof.
  pose proof
    (falsy_explicit_value_falls_back (Some EmptyString) Mock.empty_options
       Mock.env_all eq_refl)
    as (Hr & Ha & Hs).
  split; [reflexivity|].
  split; [exact (Hr eq_refl)|]. split; [exact (Ha eq_refl)|exact (Hs eq_refl)].
Defined.

(** * Further properties of the code *)

(** ** Strings: cancelling a common prefix or suffix *)

Lemma append_cancel_l (p a b : string) : p +:+ a = p +:+ b -> a = b.
Proof.
  induction p as [|c p IH]; simpl; intros H; [exact H|].
  injection H as H. exact (IH H).
Qed.

Lemma length_append (a b : string) :
  String.length (a +:+ b) = String.length a + String.length b.
Proof. induction a as [|c a IH]; simpl; [reflexivity|]. now rewrite IH. Qed.

Lemma append_cancel_r (a b s : string) : a +:+ s = b +:+ s -> a = b.
Proof.
  revert b. induction a as [|c a IH]; intros [|c' b] H; simpl in H.
  - reflexivity.
  - apply (f_equal String.length) in H.
    rewrite ?length_append in H; simpl in H; rewrite ?length_append in H; lia.
  - apply (f_equal String.length) in H.
    rewrite ?length_append in H; simpl in H; rewrite ?length_append in H; lia.
  - injection H as -> H. f_equal. exact (IH b H).
Qed.

(** ** What resolution gives, and what it reads *)

Section Resolved.
Context {Any : Type}.

(** X6.  Two calls go to the same URL exactly when the texts substituted
    for their regions are the same: distinct region strings never share
    a URL, while a region that is missing and one that is the string
    [undefined] do. *)
Theorem url_determines_region_text
    (options options' : Options.t Any) (env env' : Env) :
  (url options env = url options' env'
   <-> template_text (region options env)
       = template_text (region options' env'))
  /\ (forall r r', region options env = Some r ->
        region options' env' = Some r' ->
        url options env = url options' env' -> r = r')
  /\ (region options env = None ->
      region options' env' = Some "undefined" ->
      url options env = url options' env').
Proof.
  assert (A : url options env = url options' env'
              <-> template_text (region options env)
                  = template_text (region options' env')).
  { unfold url. split.
    - intros H. apply append_cancel_l in H.
      apply append_cancel_r in H. exact H.
    - intros ->. reflexivity. }
  split; [exact A|]. split.
  - intros r r' Hr Hr' H. apply A in H. rewrite Hr, Hr' in H. exact H.
  - intros Hr Hr'. apply A. rewrite Hr, Hr'. reflexivity.
Qed.

(** X4.  The region resolves to [undefined] exactly when [options.region]
    and [AWS_REGION] are missing or empty and [AWS_DEFAULT_REGION] is
    missing; it resolves to the empty string exactly when they are
    missing or empty and [AWS_DEFAULT_REGION] is set to the empty
    string; otherwise it is a non-empty string.  A credential resolves
    to [undefined] exactly when the option is missing or empty and its
    variable is missing. *)
Theorem resolution_undefined_or_empty_iff
    (options : Options.t Any) (env : Env) :
  (region options env = None
   <-> truthy (Options.region options) = false
       /\ truthy (env !! "AWS_REGION") = false
       /\ env !! "AWS_DEFAULT_REGION" = None)
  /\ (region options env = Some EmptyString
      <-> truthy (Options.region options) = false
          /\ truthy (env !! "AWS_REGION") = false
          /\ env !! "AWS_DEFAULT_REGION" = Some EmptyString)
  /\ truthy (region options env)
     = orb (truthy (Options.region options))
         (orb (truthy (env !! "AWS_REGION"))
              (truthy (env !! "AWS_DEFAULT_REGION")))
  /\ (accessKeyId options env = None
      <-> truthy (Options.accessKeyId options) = false
          /\ env !! "AWS_ACCESS_KEY_ID" = None)
  /\ (secretAccessKey options env = None
      <-> truthy (Options.secretAccessKey options) = false
          /\ env !! "AWS_SECRET_ACCESS_KEY" = None).
Proof.
  unfold region, accessKeyId, secretAccessKey, AWS_REGION, AWS_DEFAULT_REGION,
    AWS_ACCESS_KEY_ID, AWS_SECRET_ACCESS_KEY, js_or.
  destruct (Options.region options) as [[|c1 s1]|];
    destruct (env !! "AWS_REGION") as [[|c2 s2]|];
    destruct (env !! "AWS_DEFAULT_REGION") as [[|c3 s3]|];
    destruct (Options.accessKeyId options) as [[|c4 s4]|];
    destruct (env !! "AWS_ACCESS_KEY_ID") as [[|c5 s5]|];
    destruct (Options.secretAccessKey options) as [[|c6 s6]|];
    destruct (env !! "AWS_SECRET_ACCESS_KEY") as [[|c7 s7]|];
    simpl; repeat split; intros; try reflexivity;
    repeat match goal with H : _ /\ _ |- _ => destruct H end;
    congruence.
Qed.

End Resolved.

(** ** The order and the number of the outside calls *)

Section Order.
Context {Err Any : Type} {outside : Collaborators Err Any}.


(** X3.  The promise is fulfilled with [v] exactly when every step
    succeeded: [JSON.stringify] and the signer, if called, returned;
    [fetch], called on what the signer left, resolved to a response;
    and that response's [json()] gave [v].  The calls of such a run are
    all the calls there can be, ending with [fetch] and [res.json()]. *)
Theorem fulfilled_iff_every_step_succeeded
    (target : string) (options : Options.t Any) (env : Env) (v : Any) :
  (cognitoFetch target options env = Fulfilled v
   <-> exists d res,
         at_dispatch target options env = Return d
         /\ fetch (url options env) d = Fulfilled res
         /\ json res = Fulfilled v)
  /\ (cognitoFetch target options env = Fulfilled v ->
      exists d0 d res,
        descriptor target options env = Return d0
        /\ json res = Fulfilled v
        /\ calls target options env
           = (call_stringify (Options.body options)
              :: (if truthy_flag (Options.signed options)
                  then [call_sign d0 (credentials options env)]
                  else [])
              ++ [call_fetch (url options env) d; call_json res])%list).
Proof.
  split; [split|].
  - rewrite cognitoFetch_eq.
    destruct (at_dispatch target options env) as [d|e]; [|discriminate].
    destruct (fetch (url options env) d) as [res|e] eqn:E; [|discriminate].
    intros H. exists d, res. auto.
  - intros (d & res & Hd & Hres & Hv).
    rewrite cognitoFetch_eq, Hd, Hres. exact Hv.
  - rewrite cognitoFetch_eq, calls_eq.
    destruct (at_dispatch target options env) as [d|e] eqn:Hd;
      [|discriminate].
    destruct (at_dispatch_Return _ _ _ d Hd) as [d0 Hd0]. rewrite Hd0.
    destruct (fetch (url options env) d) as [res|e] eqn:E; [|discriminate].
    intros H. exists d0, d, res. split; [reflexivity|].
    split; [exact H|reflexivity].
Qed.

(** X2.  Every object handed to [aws4.sign], and every object handed to
    [fetch] by a call that is not signed, has method [POST], service
    [cognito-idp], a signal that is not aborted, the resolved region as
    its [region], and as its [url] the URL built from that region,
    which is also the first argument of [fetch]. *)
Theorem request_as_built_is_a_post_to_cognito_idp
    (target : string) (options : Options.t Any) (env : Env)
    (d : Request.t) :
  (exists c, In (call_sign d c) (calls target options env))
  \/ (truthy_flag (Options.signed options) = false
      /\ exists u, In (call_fetch u d) (calls target options env)) ->
  Request.method d = "POST"
  /\ Request.service d = "cognito-idp"
  /\ aborted (Request.signal d) = false
  /\ Request.region d = region options env
  /\ Request.url d = url options env
  /\ Request.url d
     = "https://cognito-idp." +:+ template_text (Request.region d)
       +:+ ".amazonaws.com/"
  /\ (forall u d', In (call_fetch u d') (calls target options env) ->
        u = Request.url d).
Proof.
  intros H.
  assert (E : descriptor target options env = Return d).
  { destruct H as [(c & H)|(Hflag & u & H)].
    - apply sign_call_inv in H. destruct H as (_ & H & _). exact H.
    - apply fetch_call_inv in H. destruct H as (_ & H).
      rewrite at_dispatch_unsigned in H by exact Hflag. exact H. }
  apply descriptor_Return in E. destruct E as (text & _ & ->).
  repeat split.
  intros u d' Hf. apply fetch_call_inv in Hf. destruct Hf as (-> & _).
  reflexivity.
Qed.

End Order.

(** ** What a run depends on *)

Section Frame.
Context {Err Any : Type} {outside : Collaborators Err Any}.

(** X5.  A run reads four environment variables and no other: in two
    environments that agree on [AWS_REGION], [AWS_DEFAULT_REGION],
    [AWS_ACCESS_KEY_ID] and [AWS_SECRET_ACCESS_KEY], the same call makes
    the same outside calls with the same arguments, and its promise
    settles the same way. *)
Theorem run_reads_four_variables
    (target : string) (options : Options.t Any) (env env' : Env) :
  env !! "AWS_REGION" = env' !! "AWS_REGION" ->
  env !! "AWS_DEFAULT_REGION" = env' !! "AWS_DEFAULT_REGION" ->
  env !! "AWS_ACCESS_KEY_ID" = env' !! "AWS_ACCESS_KEY_ID" ->
  env !! "AWS_SECRET_ACCESS_KEY" = env' !! "AWS_SECRET_ACCESS_KEY" ->
  calls target options env = calls target options env'
  /\ cognitoFetch target options env = cognitoFetch target options env'.
Proof.
  intros H1 H2 H3 H4.
  assert (Er : region options env = region options env').
  { unfold region, AWS_REGION, AWS_DEFAULT_REGION. now rewrite H1, H2. }
  assert (Ea : accessKeyId options env = accessKeyId options env').
  { unfold accessKeyId, AWS_ACCESS_KEY_ID. now rewrite H3. }
  assert (Es : secretAccessKey options env = secretAccessKey options env').
  { unfold secretAccessKey, AWS_SECRET_ACCESS_KEY. now rewrite H4. }
  unfold calls, cognitoFetch, cognitoFetch_body, requestOptions, credentials,
    url.
  rewrite Er, Ea, Es. split; reflexivity.
Qed.

(** X7.  No credential is put into the request object: the object built
    depends on the region, the body and the target alone.  A call that
    is not signed therefore behaves the same whatever credentials the
    options and the environment hold. *)
Theorem unsigned_run_ignores_credentials
    (target : string) (options options' : Options.t Any) (env env' : Env) :
  Options.region options = Options.region options' ->
  Options.body options = Options.body options' ->
  env !! "AWS_REGION" = env' !! "AWS_REGION" ->
  env !! "AWS_DEFAULT_REGION" = env' !! "AWS_DEFAULT_REGION" ->
  descriptor target options env = descriptor target options' env'
  /\ (truthy_flag (Options.signed options) = false ->
      truthy_flag (Options.signed options') = false ->
      calls target options env = calls target options' env'
      /\ cognitoFetch target options env = cognitoFetch target options' env').
Proof.
  intros Hr Hb H1 H2.
  assert (Er : region options env = region options' env').
  { unfold region, AWS_REGION, AWS_DEFAULT_REGION. now rewrite Hr, H1, H2. }
  assert (Eu : url options env = url options' env').
  { unfold url. now rewrite Er. }
  assert (Ed : descriptor target options env
               = descriptor target options' env').
  { unfold descriptor, requestOptions. now rewrite Er, Eu, Hb. }
  split; [exact Ed|].
  intros Hf Hf'.
  rewrite !calls_eq, !cognitoFetch_eq.
  rewrite !at_dispatch_unsigned by assumption.
  rewrite Hf, Hf', Hb, Eu, Ed. split; reflexivity.
Qed.

End Frame.


(** ** The test helpers and the loop over targets *)

Section Awaited.
Context {Err Any : Type} {outside : Collaborators Err Any}.





End Awaited.

Section Mocked.
Context {Err Any : Type} {outside : Collaborators Err Any}.



End Mocked.

(** ** The further properties at concrete inputs *)

(** A missing region and the region [undefined] give one URL. *)
Lemma url_determines_region_text_witness :
  url Mock.bare_options ∅
  = url (Options.mk (Some "undefined") None None Mock.client_body None) ∅.
Proof.
  exact (proj2 (proj2 (url_determines_region_text Mock.bare_options
                         (Options.mk (Some "undefined") None None
                            Mock.client_body None) ∅ ∅))
           eq_refl eq_refl).
Defined.

(** Only [AWS_DEFAULT_REGION] is set, to the empty string: the region
    resolves to the empty string. *)
Lemma resolution_undefined_or_empty_iff_witness :
  region Mock.bare_options {[ "AWS_DEFAULT_REGION" := EmptyString ]}
  = Some EmptyString.
Proof.
  apply (proj2 (proj1 (proj2 (resolution_undefined_or_empty_iff
                                Mock.bare_options
                                {[ "AWS_DEFAULT_REGION" := EmptyString ]})))).
  repeat split.
Defined.


(** The 400 response: fulfilled, so the transport and [json()] were the
    last two calls. *)
Lemma fulfilled_iff_every_step_succeeded_witness :
  exists d0 d res,
    descriptor (outside := Mock.answering_400) Mock.target
      Mock.unsigned_options ∅ = Return d0
    /\ json res = Fulfilled Mock.errorData
    /\ calls (outside := Mock.answering_400) Mock.target
         Mock.unsigned_options ∅
       = [call_stringify Mock.client_body;
          call_fetch "https://cognito-idp.us-east-1.amazonaws.com/" d;
          call_json res].
Proof.
  exact (proj2 (fulfilled_iff_every_step_succeeded
                  (outside := Mock.answering_400) Mock.target
                  Mock.unsigned_options ∅ Mock.errorData)
           eq_refl).
Defined.

(** The object the mock signer receives. *)
Lemma request_as_built_is_a_post_to_cognito_idp_witness :
  Request.method
    (requestOptions Mock.target Mock.explicit_options Mock.env_all
       (Some Mock.client_text)) = "POST"
  /\ Request.service
       (requestOptions Mock.target Mock.explicit_options Mock.env_all
          (Some Mock.client_text)) = "cognito-idp".
Proof.
  pose proof
    (request_as_built_is_a_post_to_cognito_idp (outside := Mock.ok)
       Mock.target Mock.explicit_options Mock.env_all
       (requestOptions Mock.target Mock.explicit_options Mock.env_all
          (Some Mock.client_text))
       (or_introl
          (ex_intro _ (credentials Mock.explicit_options Mock.env_all)
             (or_intror (or_introl eq_refl)))))
    as (Hm & Hs & _).
  exact (conj Hm Hs).
Defined.

(** One more variable in the environment changes nothing. *)
Lemma run_reads_four_variables_witness :
  calls (outside := Mock.ok) Mock.target Mock.explicit_options Mock.env_all
  = calls (outside := Mock.ok) Mock.target Mock.explicit_options
      (<[ "HOME" := "/root" ]> Mock.env_all)
  /\ cognitoFetch (outside := Mock.ok) Mock.target Mock.explicit_options
       Mock.env_all
     = cognitoFetch (outside := Mock.ok) Mock.target Mock.explicit_options
         (<[ "HOME" := "/root" ]> Mock.env_all).
Proof.
  apply (run_reads_four_variables (outside := Mock.ok) Mock.target
           Mock.explicit_options Mock.env_all
           (<[ "HOME" := "/root" ]> Mock.env_all));
    vm_compute; reflexivity.
Defined.

(** The unsigned call with credentials given both ways, and the same
    call with none anywhere. *)
Lemma unsigned_run_ignores_credentials_witness :
  calls (outside := Mock.ok) Mock.target Mock.unsigned_options
    {[ "AWS_ACCESS_KEY_ID" := "AKIA_ENV";
       "AWS_SECRET_ACCESS_KEY" := "secret_env" ]}
  = calls (outside := Mock.ok) Mock.target
      (Options.mk (Some "us-east-1") None None Mock.client_body None) ∅.
Proof.
  exact (proj1 (proj2 (unsigned_run_ignores_credentials (outside := Mock.ok)
                         Mock.target Mock.unsigned_options
                         (Options.mk (Some "us-east-1") None None
                            Mock.client_body None)
                         {[ "AWS_ACCESS_KEY_ID" := "AKIA_ENV";
                            "AWS_SECRET_ACCESS_KEY" := "secret_env" ]} ∅
                         eq_refl eq_refl eq_refl eq_refl)
                  eq_refl eq_refl)).
Defined.


